(** * GP2Y0E02B infrared sensor behind a PCA9546 multiplexer

    A shallow embedding of [src/lib/infrared/infrared.cpp] and
    [src/lib/infrared/infrared.h].

    The driver talks to two Arduino objects, [Wire] (the I2C bus) and
    [Serial] (the console).  Both are global and shared by every
    [Infrared] instance, so they live in one [Board] record that is
    threaded through every call, next to the fields of the instance the
    method runs on. *)

From Stdlib Require Import ZArith List String Bool Lia.
Import ListNotations.

Local Open Scope Z_scope.

(** ** Machine integers

    The C++ integer types are carried as [Z] with every conversion
    written out.  The operands of [<<], [|], [*] and [>>] are promoted
    to [int], which is taken to be 32 bits wide, as on the 32-bit
    Arduino boards; the sources do not name the board. *)

Definition int_bits : Z := 32.

Definition to_uint8 (x : Z) : Z := x mod 2 ^ 8.
Definition to_uint16 (x : Z) : Z := x mod 2 ^ 16.

(** Two's complement reading of the low [w] bits of [x]. *)
Definition to_signed (w x : Z) : Z :=
  let m := x mod 2 ^ w in
  if m <? 2 ^ (w - 1) then m else m - 2 ^ w.

Definition to_int16 (x : Z) : Z := to_signed 16 x.
Definition to_int (x : Z) : Z := to_signed int_bits x.

Definition is_uint8 (x : Z) : Prop := 0 <= x < 256.

(** ** The board: the I2C bus and the console *)

Inductive Event : Type :=
| WireBegin
| BeginTransmission (address : Z)
| WireWrite (data : Z)
| EndTransmission
| RequestFrom (address quantity : Z)
| WireRead
| SerialPrintln (msg : string).

(** [rxBuffer] holds the bytes of the last [requestFrom] that have not
    been read yet.  [replies] is what the devices on the bus will answer
    to the coming requests, one list of bytes per request.  [trace] is
    every call made on [Wire] and [Serial] so far, oldest first. *)
Record Board : Type := mkBoard {
  rxBuffer : list Z;
  replies : list (list Z);
  trace : list Event
}.

Record Infrared : Type := mkInfrared {
  _index : Z;
  _shiftValue : Z
}.

(** A method runs on an instance and on the board. *)
Record State : Type := mkState {
  this : Infrared;
  board : Board
}.

Definition M (A : Type) : Type := State -> A * State.

Definition ret {A : Type} (a : A) : M A := fun s => (a, s).

Definition bind {A B : Type} (m : M A) (k : A -> M B) : M B :=
  fun s => let (a, s') := m s in k a s'.

Notation "x <- m ;; k" := (bind m (fun x => k))
  (at level 61, m at next level, right associativity).
Notation "m ;;; k" := (bind m (fun _ => k))
  (at level 61, right associativity).

Definition emit (e : Event) : M unit :=
  fun s =>
    let b := board s in
    (tt, mkState (this s) (mkBoard (rxBuffer b) (replies b) (trace b ++ [e]))).

Definition getThis : M Infrared := fun s => (this s, s).

Definition putThis (i : Infrared) : M unit :=
  fun s => (tt, mkState i (board s)).

Module Wire.

Definition begin : M unit := emit WireBegin.

Definition beginTransmission (address : Z) : M unit :=
  emit (BeginTransmission address).

(** [write(int)] forwards to [write(uint8_t)]. *)
Definition write (data : Z) : M unit := emit (WireWrite (to_uint8 data)).

Definition endTransmission : M unit := emit EndTransmission.

(** The addressed device answers with the next reply, of which at most
    [quantity] bytes are kept; earlier unread bytes are dropped. *)
Definition requestFrom (address quantity : Z) : M unit :=
  fun s =>
    let b := board s in
    (tt, mkState (this s)
           (mkBoard (firstn (Z.to_nat quantity) (hd [] (replies b)))
                    (tl (replies b))
                    (trace b ++ [RequestFrom address quantity]))).

Definition available : M Z :=
  fun s => (Z.of_nat (List.length (rxBuffer (board s))), s).

(** The next unread byte, or [-1] when there is none, as every Arduino
    [Stream] answers. *)
Definition read : M Z :=
  fun s =>
    let b := board s in
    match rxBuffer b with
    | [] => (-1, mkState (this s) (mkBoard [] (replies b) (trace b ++ [WireRead])))
    | x :: rest =>
        (x, mkState (this s) (mkBoard rest (replies b) (trace b ++ [WireRead])))
    end.

End Wire.

Module Serial.

Definition println (msg : string) : M unit := emit (SerialPrintln msg).

End Serial.

(** ** Constants of infrared.cpp *)

Definition MULTIPLEXER_SLAVE_ADDRESS : Z := Z.shiftr 0xE0 1.
Definition MULTIPLEXER_CHANNEL_COUNT : Z := 4.
Definition IR_SLAVE_ADDRESS : Z := Z.shiftr 0x80 1.
Definition IR_SHIFT_REG_ADDRESS : Z := 0x35.
Definition IR_DISTANCE_REG_ADDRESS : Z := 0x5E.
Definition MAX_IR_RANGE : Z := 639.

(** ** The class Infrared *)

(** [Infrared::Infrared(uint8_t index) : _index(index) {}].  The other
    field is left as it was in the storage the object is built in. *)
Definition construct (index : Z) (storage : Infrared) : Infrared :=
  mkInfrared (to_uint8 index) (_shiftValue storage).

(** [1 << this->_index], computed in [int].  C++ defines the shift for
    an index up to 30; this is line 138 in that range. *)
Definition channelMask (index : Z) : Z := to_int (Z.shiftl 1 index).

Definition _setMultiplexer : M unit :=
  self <- getThis ;;
  Wire.beginTransmission MULTIPLEXER_SLAVE_ADDRESS ;;;
  Wire.write (channelMask (_index self)) ;;;
  Wire.endTransmission.

Definition setup : M unit :=
  Wire.begin ;;;
  _setMultiplexer ;;;
  Wire.beginTransmission IR_SLAVE_ADDRESS ;;;
  Wire.write IR_SHIFT_REG_ADDRESS ;;;
  Wire.endTransmission ;;;
  Wire.requestFrom IR_SLAVE_ADDRESS 1 ;;;
  n <- Wire.available ;;
  (if n =? 0 then Serial.println "Wire not available" else ret tt) ;;;
  v <- Wire.read ;;
  self <- getThis ;;
  putThis (mkInfrared (_index self) (to_uint8 v)).

(** The 12-bit register value, [(high << 4) | low], computed in [int]. *)
Definition raw12 (high low : Z) : Z :=
  to_int (Z.lor (to_int (Z.shiftl high 4)) low).

(** [(raw * 10) >> (4 + shiftValue)], computed in [int].  This is line
    124 for a stored shift value up to 27.  From 28 on the count reaches
    the width of [int] and C++ leaves the result undefined; nothing
    about the code is read off this definition there. *)
Definition scale (raw shiftValue : Z) : Z :=
  to_int (Z.shiftr (to_int (raw * 10)) (to_int (4 + shiftValue))).

(** The local [uint16_t distance] of [read]. *)
Definition distance (high low shiftValue : Z) : Z :=
  to_uint16 (scale (raw12 high low) shiftValue).

Definition read : M Z :=
  _setMultiplexer ;;;
  Wire.beginTransmission IR_SLAVE_ADDRESS ;;;
  Wire.write IR_DISTANCE_REG_ADDRESS ;;;
  Wire.endTransmission ;;;
  Wire.requestFrom IR_SLAVE_ADDRESS 2 ;;;
  n <- Wire.available ;;
  if n <? 2 then
    Serial.println "Wire not available" ;;;
    ret (to_int16 (-1))
  else
    h <- Wire.read ;;
    let high := to_uint8 h in
    l <- Wire.read ;;
    let low := to_uint8 l in
    self <- getThis ;;
    let distance := distance high low (_shiftValue self) in
    ret (to_int16 (if distance <? MAX_IR_RANGE then distance else -1)).

(** Calling a method of the instance [i] on the board [b]. *)
Definition call {A : Type} (m : M A) (i : Infrared) (b : Board) : A * State :=
  m (mkState i b).

Definition result {A : Type} (r : A * State) : A := fst r.
Definition object {A : Type} (r : A * State) : Infrared := this (snd r).
Definition after {A : Type} (r : A * State) : Board := board (snd r).

(** ** The reference formula

    The data sheet's [distance(cm) = (high * 16 + low) / 16 / 2 ^ shift],
    in millimetres and with one truncating division, as the
    specification words it. *)
Definition reference_mm (high low shiftValue : Z) : Z :=
  ((high * 16 + low) * 10) / (16 * 2 ^ shiftValue).


(** ** Conversions that do nothing *)

Lemma to_int_small (x : Z) : 0 <= x < 2 ^ 31 -> to_int x = x.
Proof.
  intros H. unfold to_int, to_signed, int_bits.
  change (32 - 1) with 31.
  assert (E : x mod 2 ^ 32 = x) by (apply Z.mod_small; lia).
  rewrite E.
  destruct (x <? 2 ^ 31) eqn:L; [reflexivity | apply Z.ltb_ge in L; lia].
Qed.

(** With an [int] of 16 bits the product [raw * 10] of line 124 would
    not fit from [raw = 3277] on. *)
Remark product_needs_wide_int :
  to_signed 16 (3277 * 10) = -32766 /\ to_int (3277 * 10) = 32770.
Proof. split; reflexivity. Qed.

Lemma to_uint16_small (x : Z) : 0 <= x < 2 ^ 16 -> to_uint16 x = x.
Proof. intros H. unfold to_uint16. apply Z.mod_small. exact H. Qed.

Lemma to_uint8_small (x : Z) : is_uint8 x -> to_uint8 x = x.
Proof. intros H. unfold to_uint8. apply Z.mod_small. exact H. Qed.

Lemma to_int16_small (x : Z) : 0 <= x < 2 ^ 15 -> to_int16 x = x.
Proof.
  intros H. unfold to_int16, to_signed.
  change (16 - 1) with 15.
  assert (E : x mod 2 ^ 16 = x) by (apply Z.mod_small; lia).
  rewrite E.
  destruct (x <? 2 ^ 15) eqn:L; [reflexivity | apply Z.ltb_ge in L; lia].
Qed.

Lemma to_uint8_range (x : Z) : is_uint8 (to_uint8 x).
Proof. unfold is_uint8, to_uint8. apply Z.mod_pos_bound. reflexivity. Qed.

Lemma to_uint16_range (x : Z) : 0 <= to_uint16 x < 65536.
Proof. unfold to_uint16. apply Z.mod_pos_bound. reflexivity. Qed.

(** ** The arithmetic of line 124 without the conversions *)

Lemma lor_below_pow2 (a b n : Z) :
  0 <= a < 2 ^ n -> 0 <= b < 2 ^ n -> 0 <= Z.lor a b < 2 ^ n.
Proof.
  intros [Ha La] [Hb Lb].
  assert (Hn : 0 <= Z.lor a b) by (apply Z.lor_nonneg; split; assumption).
  split; [exact Hn|].
  destruct (Z.eq_dec (Z.lor a b) 0) as [E | NE]; [rewrite E; lia|].
  apply Z.log2_lt_pow2; [lia|].
  rewrite Z.log2_lor by assumption.
  apply Z.max_lub_lt.
  - destruct (Z.eq_dec a 0) as [-> | Na].
    + simpl. destruct (Z.eq_dec b 0) as [-> | Nb].
      * simpl in NE. contradiction.
      * assert (0 <= Z.log2 b) by apply Z.log2_nonneg.
        assert (Z.log2 b < n) by (apply Z.log2_lt_pow2; lia). lia.
    + apply Z.log2_lt_pow2; lia.
  - destruct (Z.eq_dec b 0) as [-> | Nb].
    + simpl. destruct (Z.eq_dec a 0) as [-> | Na].
      * simpl in NE. contradiction.
      * assert (0 <= Z.log2 a) by apply Z.log2_nonneg.
        assert (Z.log2 a < n) by (apply Z.log2_lt_pow2; lia). lia.
    + apply Z.log2_lt_pow2; lia.
Qed.

Lemma raw12_plain (high low : Z) :
  is_uint8 high -> is_uint8 low ->
  raw12 high low = Z.lor (Z.shiftl high 4) low /\ 0 <= raw12 high low <= 4095.
Proof.
  unfold is_uint8. intros Hh Hl. unfold raw12.
  assert (S4 : Z.shiftl high 4 = high * 16)
    by (rewrite Z.shiftl_mul_pow2 by lia; reflexivity).
  rewrite S4.
  rewrite (to_int_small (high * 16)) by lia.
  assert (B : 0 <= Z.lor (high * 16) low < 2 ^ 12)
    by (apply lor_below_pow2; lia).
  change (2 ^ 12) with 4096 in B.
  rewrite to_int_small by lia.
  split; [reflexivity | lia].
Qed.

Lemma shiftr_below (x n : Z) : 0 <= x -> 0 <= n -> 0 <= Z.shiftr x n <= x.
Proof.
  intros Hx Hn. rewrite Z.shiftr_div_pow2 by exact Hn.
  assert (P : 0 < 2 ^ n) by (apply Z.pow_pos_nonneg; lia).
  split.
  - apply Z.div_pos; lia.
  - apply Z.div_le_upper_bound; [exact P | nia].
Qed.

Lemma scale_plain (raw shiftValue : Z) :
  0 <= raw <= 4095 -> 0 <= shiftValue <= 256 ->
  scale raw shiftValue = Z.shiftr (raw * 10) (4 + shiftValue).
Proof.
  intros Hr Hs. unfold scale.
  rewrite (to_int_small (raw * 10)) by lia.
  rewrite (to_int_small (4 + shiftValue)) by lia.
  pose proof (shiftr_below (raw * 10) (4 + shiftValue)) as B.
  rewrite to_int_small by lia.
  reflexivity.
Qed.

Lemma scale_div (raw shiftValue : Z) :
  0 <= raw <= 4095 -> 0 <= shiftValue <= 256 ->
  scale raw shiftValue = raw * 10 / (16 * 2 ^ shiftValue).
Proof.
  intros Hr Hs. rewrite scale_plain by assumption.
  rewrite Z.shiftr_div_pow2 by lia.
  rewrite Z.pow_add_r by lia.
  reflexivity.
Qed.

Lemma scale_range (raw shiftValue : Z) :
  0 <= raw <= 4095 -> 0 <= shiftValue <= 256 ->
  0 <= scale raw shiftValue <= 2559.
Proof.
  intros Hr Hs. rewrite scale_div by assumption.
  assert (P : 1 <= 2 ^ shiftValue)
    by (assert (0 < 2 ^ shiftValue) by (apply Z.pow_pos_nonneg; lia); lia).
  split.
  - apply Z.div_pos; lia.
  - assert (D : raw * 10 / (16 * 2 ^ shiftValue) < 2560); [|lia].
    apply Z.div_lt_upper_bound; nia.
Qed.

Lemma distance_plain (high low shiftValue : Z) :
  is_uint8 high -> is_uint8 low -> 0 <= shiftValue <= 256 ->
  distance high low shiftValue =
  Z.shiftr (Z.lor (Z.shiftl high 4) low * 10) (4 + shiftValue).
Proof.
  intros Hh Hl Hs. unfold distance.
  destruct (raw12_plain high low Hh Hl) as [E B].
  pose proof (scale_range _ _ B Hs) as R.
  rewrite to_uint16_small by lia.
  rewrite scale_plain by assumption.
  rewrite E. reflexivity.
Qed.

(** ** Running the methods

    Each lemma gives the whole outcome of one call: the value returned,
    the fields of the instance and the board afterwards. *)

Ltac run :=
  unfold call, read, setup, _setMultiplexer, bind, ret, getThis, putThis,
    Wire.begin, Wire.beginTransmission, Wire.write, Wire.endTransmission,
    Wire.requestFrom, Wire.available, Wire.read, Serial.println, emit;
  change (Z.to_nat 2) with 2%nat; change (Z.to_nat 1) with 1%nat;
  cbn [this board rxBuffer replies trace fst snd].

Ltac flatten_trace := rewrite <- ?app_assoc; cbn [app].

Lemma setMultiplexer_run (i : Infrared) (b : Board) :
  call _setMultiplexer i b =
  (tt, mkState i
         (mkBoard (rxBuffer b) (replies b)
            (trace b ++
             [BeginTransmission MULTIPLEXER_SLAVE_ADDRESS;
              WireWrite (to_uint8 (channelMask (_index i)));
              EndTransmission]))).
Proof. run. flatten_trace. reflexivity. Qed.

Lemma read_short (i : Infrared) (b : Board) :
  (List.length (hd [] (replies b)) < 2)%nat ->
  call read i b =
  (-1, mkState i
         (mkBoard (hd [] (replies b)) (tl (replies b))
            (trace b ++
             [BeginTransmission MULTIPLEXER_SLAVE_ADDRESS;
              WireWrite (to_uint8 (channelMask (_index i)));
              EndTransmission;
              BeginTransmission IR_SLAVE_ADDRESS;
              WireWrite IR_DISTANCE_REG_ADDRESS;
              EndTransmission;
              RequestFrom IR_SLAVE_ADDRESS 2;
              SerialPrintln "Wire not available"]))).
Proof.
  intros H. run.
  destruct (hd [] (replies b)) as [| x [| y more]]; cbn in H |- *;
    try lia; flatten_trace; reflexivity.
Qed.

Lemma read_two (i : Infrared) (b : Board) (h l : Z) (more : list Z) :
  hd [] (replies b) = h :: l :: more ->
  call read i b =
  (let d := distance (to_uint8 h) (to_uint8 l) (_shiftValue i) in
   to_int16 (if d <? MAX_IR_RANGE then d else -1),
   mkState i
     (mkBoard [] (tl (replies b))
        (trace b ++
         [BeginTransmission MULTIPLEXER_SLAVE_ADDRESS;
          WireWrite (to_uint8 (channelMask (_index i)));
          EndTransmission;
          BeginTransmission IR_SLAVE_ADDRESS;
          WireWrite IR_DISTANCE_REG_ADDRESS;
          EndTransmission;
          RequestFrom IR_SLAVE_ADDRESS 2;
          WireRead; WireRead]))).
Proof.
  intros H. run. rewrite H. cbn. flatten_trace. reflexivity.
Qed.

Lemma setup_empty (i : Infrared) (b : Board) :
  hd [] (replies b) = [] ->
  call setup i b =
  (tt, mkState (mkInfrared (_index i) 255)
         (mkBoard [] (tl (replies b))
            (trace b ++
             [WireBegin;
              BeginTransmission MULTIPLEXER_SLAVE_ADDRESS;
              WireWrite (to_uint8 (channelMask (_index i)));
              EndTransmission;
              BeginTransmission IR_SLAVE_ADDRESS;
              WireWrite IR_SHIFT_REG_ADDRESS;
              EndTransmission;
              RequestFrom IR_SLAVE_ADDRESS 1;
              SerialPrintln "Wire not available";
              WireRead]))).
Proof.
  intros H. run. rewrite H. cbn. flatten_trace. reflexivity.
Qed.

Lemma setup_byte (i : Infrared) (b : Board) (v : Z) (more : list Z) :
  hd [] (replies b) = v :: more ->
  call setup i b =
  (tt, mkState (mkInfrared (_index i) (to_uint8 v))
         (mkBoard [] (tl (replies b))
            (trace b ++
             [WireBegin;
              BeginTransmission MULTIPLEXER_SLAVE_ADDRESS;
              WireWrite (to_uint8 (channelMask (_index i)));
              EndTransmission;
              BeginTransmission IR_SLAVE_ADDRESS;
              WireWrite IR_SHIFT_REG_ADDRESS;
              EndTransmission;
              RequestFrom IR_SLAVE_ADDRESS 1;
              WireRead]))).
Proof.
  intros H. run. rewrite H. cbn. flatten_trace. reflexivity.
Qed.

(** ** Facts shared by the theorems below *)

Lemma return_value (d : Z) :
  0 <= d < 65536 ->
  to_int16 (if d <? MAX_IR_RANGE then d else -1) =
  (if d <? 639 then d else -1).
Proof.
  intros H. unfold MAX_IR_RANGE.
  destruct (d <? 639) eqn:L.
  - apply Z.ltb_lt in L. apply to_int16_small. lia.
  - reflexivity.
Qed.

Lemma channel_byte (index : Z) :
  0 <= index <= 7 -> to_uint8 (channelMask index) = Z.shiftl 1 index.
Proof.
  intros H.
  assert (C : index = 0 \/ index = 1 \/ index = 2 \/ index = 3 \/
              index = 4 \/ index = 5 \/ index = 6 \/ index = 7) by lia.
  repeat (destruct C as [-> | C]; [reflexivity|]).
  subst index. reflexivity.
Qed.

Lemma land_shifted_nibble (high low : Z) :
  0 <= low <= 15 -> Z.land (Z.shiftl high 4) low = 0.
Proof.
  intros Hl. apply Z.bits_inj'. intros n Hn.
  rewrite Z.land_spec, Z.bits_0.
  destruct (Z.lt_ge_cases n 4) as [Lt | Ge].
  - rewrite Z.shiftl_spec_low by exact Lt. reflexivity.
  - assert (F : Z.testbit low n = false).
    { apply Z.bits_above_log2; [lia|].
      destruct (Z.eq_dec low 0) as [-> | NZ]; [simpl; lia|].
      assert (Z.log2 low < 4) by (apply Z.log2_lt_pow2; lia). lia. }
    rewrite F. apply andb_false_r.
Qed.

Lemma lor_shifted_nibble (high low : Z) :
  0 <= low <= 15 -> Z.lor (Z.shiftl high 4) low = high * 16 + low.
Proof.
  intros Hl.
  pose proof (Z.add_lor_land (Z.shiftl high 4) low) as A.
  rewrite land_shifted_nibble in A by exact Hl.
  rewrite Z.shiftl_mul_pow2 in A by lia.
  change (2 ^ 4) with 16 in A. rewrite Z.shiftl_mul_pow2 by lia.
  change (2 ^ 4) with 16. lia.
Qed.

(** ** The properties of the specification *)

(** C1: [read] takes the first byte received as [high] and the second as
    [low], rebuilds [raw12 = (high << 4) | low] and computes the distance
    as [(raw12 * 10) >> (4 + shiftValue)], for every pair of bytes and
    every stored shift value up to 27, the largest for which C++ defines
    the shift of line 124; for [high = 0x27], [low = 0x00] and a shift
    value of 2, [raw12] is 624 and [read] returns 97. *)
Theorem read_decodes_register_pair :
  (forall (i : Infrared) (b : Board) (high low : Z) (more : list Z),
      is_uint8 high -> is_uint8 low -> 0 <= _shiftValue i <= 27 ->
      hd [] (replies b) = high :: low :: more ->
      raw12 high low = Z.lor (Z.shiftl high 4) low /\
      distance high low (_shiftValue i) =
        Z.shiftr (Z.lor (Z.shiftl high 4) low * 10) (4 + _shiftValue i) /\
      result (call read i b) =
        (let d := Z.shiftr (Z.lor (Z.shiftl high 4) low * 10)
                    (4 + _shiftValue i) in
         if d <? 639 then d else -1)) /\
  raw12 0x27 0x00 = 624 /\
  distance 0x27 0x00 2 = 97 /\
  (forall (index : Z) (b : Board) (more : list Z),
      hd [] (replies b) = 0x27 :: 0x00 :: more ->
      result (call read (mkInfrared index 2) b) = 97).
Proof.
  split; [|split; [reflexivity | split; [reflexivity|]]].
  - intros i b high low more Hh Hl Hs Hr.
    destruct (raw12_plain high low Hh Hl) as [E B].
    assert (Hs' : 0 <= _shiftValue i <= 256) by lia.
    pose proof (distance_plain high low (_shiftValue i) Hh Hl Hs') as D.
    split; [exact E | split; [exact D|]].
    rewrite (read_two i b high low more Hr). unfold result. cbn [fst].
    rewrite !to_uint8_small by assumption.
    cbv zeta. rewrite return_value by apply to_uint16_range.
    rewrite D. reflexivity.
  - intros index b more Hr.
    rewrite (read_two (mkInfrared index 2) b _ _ more Hr). reflexivity.
Qed.

Lemma read_decodes_register_pair_witness :
  is_uint8 0x12 /\ is_uint8 0x0B /\ 0 <= _shiftValue (mkInfrared 3 1) <= 27 /\
  result (call read (mkInfrared 3 1) (mkBoard [] [[0x12; 0x0B]] [])) = 93.
Proof.
  assert (Hh : is_uint8 0x12) by (unfold is_uint8; lia).
  assert (Hl : is_uint8 0x0B) by (unfold is_uint8; lia).
  assert (Hs : 0 <= _shiftValue (mkInfrared 3 1) <= 27) by (simpl; lia).
  split; [exact Hh | split; [exact Hl | split; [exact Hs|]]].
  exact (proj2 (proj2
    (proj1 read_decodes_register_pair (mkInfrared 3 1)
       (mkBoard [] [[0x12; 0x0B]] []) 0x12 0x0B [] Hh Hl Hs eq_refl))).
Defined.

Lemma read_returns_checked_distance (i : Infrared) (b : Board) (h l : Z)
    (more : list Z) :
  hd [] (replies b) = h :: l :: more ->
  result (call read i b) =
  (let d := distance (to_uint8 h) (to_uint8 l) (_shiftValue i) in
   if d <? 639 then d else -1).
Proof.
  intros Hr. rewrite (read_two i b h l more Hr). unfold result. cbn [fst].
  cbv zeta. apply return_value. apply to_uint16_range.
Qed.

(** C2: for every pair of bytes and every stored shift value up to 27,
    the largest for which C++ defines the shift of line 124, when the
    computed distance is 639 or more [read] returns -1, and otherwise it
    returns the computed distance; whatever the bus does and whatever is
    stored, a value returned by [read] other than -1 lies between 0 and
    638.  With
    a shift value of 2 the smallest [raw12] with a computed distance of
    639 is 4090, and [read] returns -1 for it, while 4084 has a computed
    distance of 638, which [read] returns. *)
Theorem read_rejects_from_639 :
  (forall (i : Infrared) (b : Board) (high low : Z) (more : list Z),
      is_uint8 high -> is_uint8 low -> 0 <= _shiftValue i <= 27 ->
      hd [] (replies b) = high :: low :: more ->
      let d := Z.shiftr (Z.lor (Z.shiftl high 4) low * 10)
                 (4 + _shiftValue i) in
      (639 <= d -> result (call read i b) = -1) /\
      (d < 639 -> result (call read i b) = d)) /\
  (forall (i : Infrared) (b : Board),
      result (call read i b) = -1 \/ 0 <= result (call read i b) <= 638) /\
  (raw12 0xFF 0x0A = 4090 /\ scale 4090 2 = 639 /\
   (forall raw : Z, 0 <= raw < 4090 -> scale raw 2 < 639) /\
   forall (index : Z) (b : Board) (more : list Z),
     hd [] (replies b) = 0xFF :: 0x0A :: more ->
     result (call read (mkInfrared index 2) b) = -1) /\
  (raw12 0xFF 0x04 = 4084 /\ scale 4084 2 = 638 /\
   forall (index : Z) (b : Board) (more : list Z),
     hd [] (replies b) = 0xFF :: 0x04 :: more ->
     result (call read (mkInfrared index 2) b) = 638).
Proof.
  split; [|split; [|split]].
  - intros i b high low more Hh Hl Hs Hr d.
    assert (Hs' : 0 <= _shiftValue i <= 256) by lia.
    pose proof (distance_plain high low (_shiftValue i) Hh Hl Hs') as D.
    rewrite (read_returns_checked_distance i b high low more Hr).
    rewrite !to_uint8_small by assumption. cbv zeta. rewrite D. fold d.
    split; intros Hd.
    + destruct (d <? 639) eqn:L; [apply Z.ltb_lt in L; lia | reflexivity].
    + destruct (d <? 639) eqn:L; [reflexivity | apply Z.ltb_ge in L; lia].
  - intros i b.
    destruct (hd [] (replies b)) as [| h [| l more]] eqn:Hr.
    + left. rewrite read_short by (rewrite Hr; simpl; lia). reflexivity.
    + left. rewrite read_short by (rewrite Hr; simpl; lia). reflexivity.
    + rewrite (read_returns_checked_distance i b h l more Hr). cbv zeta.
      pose proof (to_uint16_range
        (scale (raw12 (to_uint8 h) (to_uint8 l)) (_shiftValue i))) as R.
      fold (distance (to_uint8 h) (to_uint8 l) (_shiftValue i)) in R.
      destruct (distance (to_uint8 h) (to_uint8 l) (_shiftValue i) <? 639)
        eqn:L; [right; apply Z.ltb_lt in L; lia | left; reflexivity].
  - split; [reflexivity | split; [reflexivity | split]].
    + intros raw Hraw. rewrite scale_div by lia.
      apply Z.div_lt_upper_bound; [reflexivity | change (2 ^ 2) with 4; lia].
    + intros index b more Hr.
      rewrite (read_returns_checked_distance _ b _ _ more Hr). reflexivity.
  - split; [reflexivity | split; [reflexivity|]].
    intros index b more Hr.
    rewrite (read_returns_checked_distance _ b _ _ more Hr). reflexivity.
Qed.

Lemma read_rejects_from_639_witness :
  is_uint8 0xFF /\ is_uint8 0xF0 /\ 0 <= _shiftValue (mkInfrared 0 1) <= 27 /\
  result (call read (mkInfrared 0 1) (mkBoard [] [[0xFF; 0xF0]] [])) = -1.
Proof.
  assert (Hh : is_uint8 0xFF) by (unfold is_uint8; lia).
  assert (Hl : is_uint8 0xF0) by (unfold is_uint8; lia).
  assert (Hs : 0 <= _shiftValue (mkInfrared 0 1) <= 27) by (simpl; lia).
  split; [exact Hh | split; [exact Hl | split; [exact Hs|]]].
  apply (proj1 (proj1 read_rejects_from_639 (mkInfrared 0 1)
           (mkBoard [] [[0xFF; 0xF0]] []) 0xFF 0xF0 [] Hh Hl Hs eq_refl)).
  vm_compute. discriminate.
Defined.

(** C3, as the code has it: when the sensor gives no byte to the
    calibration request, [setup] prints its notice and then still stores
    what [Wire.read] hands back, the -1 of an empty buffer cut to eight
    bits; a shift value of 2 from an earlier [setup], or of 0, is
    replaced by 255. *)
Theorem setup_without_data_stores_255 :
  (forall (index prior : Z) (rx : list Z) (rest : list (list Z))
          (t : list Event),
      call setup (mkInfrared index prior) (mkBoard rx ([] :: rest) t) =
      (tt, mkState (mkInfrared index 255)
             (mkBoard [] rest
                (t ++
                 [WireBegin;
                  BeginTransmission (Z.shiftr 0xE0 1);
                  WireWrite (to_uint8 (channelMask index));
                  EndTransmission;
                  BeginTransmission (Z.shiftr 0x80 1);
                  WireWrite 0x35;
                  EndTransmission;
                  RequestFrom (Z.shiftr 0x80 1) 1;
                  SerialPrintln "Wire not available";
                  WireRead])))) /\
  _shiftValue (object (call setup (mkInfrared 0 2) (mkBoard [] [] []))) = 255 /\
  _shiftValue (object (call setup (mkInfrared 0 0) (mkBoard [] [] []))) = 255.
Proof.
  split; [|split; reflexivity].
  intros index prior rx rest t.
  rewrite setup_empty by reflexivity. reflexivity.
Qed.

(** C4: when fewer than two bytes are available after the request for
    two, [read] returns exactly -1; it prints its notice, makes no call
    of [Wire.read], leaves the bytes that did arrive in the buffer, and
    computes no distance. *)
Theorem read_short_reply_returns_sentinel :
  forall (i : Infrared) (b : Board),
    Z.of_nat (List.length (hd [] (replies b))) < 2 ->
    result (call read i b) = -1 /\
    object (call read i b) = i /\
    rxBuffer (after (call read i b)) = hd [] (replies b) /\
    trace (after (call read i b)) =
      trace b ++
      [BeginTransmission (Z.shiftr 0xE0 1);
       WireWrite (to_uint8 (channelMask (_index i)));
       EndTransmission;
       BeginTransmission (Z.shiftr 0x80 1);
       WireWrite 0x5E;
       EndTransmission;
       RequestFrom (Z.shiftr 0x80 1) 2;
       SerialPrintln "Wire not available"].
Proof.
  intros i b H. rewrite (read_short i b) by lia.
  unfold result, object, after. cbn [fst snd this board rxBuffer trace].
  repeat split; reflexivity.
Qed.

Lemma read_short_reply_returns_sentinel_witness :
  Z.of_nat (List.length (hd [] (replies (mkBoard [] [[0x27]] [])))) < 2 /\
  result (call read (mkInfrared 1 2) (mkBoard [] [[0x27]] [])) = -1.
Proof.
  assert (H : Z.of_nat (List.length (hd [] (replies (mkBoard [] [[0x27]] []))))
              < 2) by (simpl; lia).
  split; [exact H|].
  exact (proj1 (read_short_reply_returns_sentinel (mkInfrared 1 2)
                  (mkBoard [] [[0x27]] []) H)).
Defined.

(** C5: for every index from 0 to 3, selecting the channel is one write
    transaction to the multiplexer's address [0xE0 >> 1] that carries the
    single byte [1 << index] and nothing else; nothing is read and the
    instance is left as it was. *)
Theorem setMultiplexer_writes_one_hot_mask :
  forall (index shiftValue : Z) (b : Board),
    0 <= index <= 3 ->
    call _setMultiplexer (mkInfrared index shiftValue) b =
    (tt, mkState (mkInfrared index shiftValue)
           (mkBoard (rxBuffer b) (replies b)
              (trace b ++
               [BeginTransmission (Z.shiftr 0xE0 1);
                WireWrite (Z.shiftl 1 index);
                EndTransmission]))).
Proof.
  intros index shiftValue b H.
  rewrite setMultiplexer_run. cbn [_index].
  rewrite channel_byte by lia. reflexivity.
Qed.

Lemma setMultiplexer_writes_one_hot_mask_witness :
  0 <= 3 <= 3 /\
  trace (after (call _setMultiplexer (mkInfrared 3 2) (mkBoard [] [] []))) =
  [BeginTransmission 0x70; WireWrite 8; EndTransmission].
Proof.
  assert (H : 0 <= 3 <= 3) by lia.
  split; [exact H|].
  rewrite (setMultiplexer_writes_one_hot_mask 3 2 (mkBoard [] [] []) H).
  reflexivity.
Defined.

(** C6: for every high byte, every low byte of at most 15 and every
    shift value up to 27, the largest for which C++ defines the shift of
    line 124, the distance that line 124 computes with shifts and a
    bitwise or is the reference formula
    [((high * 16 + low) * 10) / (16 * 2 ^ shiftValue)] with its one
    truncating division. *)
Theorem distance_refines_reference_formula :
  forall high low shiftValue : Z,
    is_uint8 high -> 0 <= low <= 15 -> 0 <= shiftValue <= 27 ->
    distance high low shiftValue = reference_mm high low shiftValue.
Proof.
  intros high low shiftValue Hh Hl Hs.
  rewrite distance_plain by (unfold is_uint8 in *; lia).
  rewrite lor_shifted_nibble by exact Hl.
  rewrite Z.shiftr_div_pow2 by lia.
  rewrite Z.pow_add_r by lia.
  reflexivity.
Qed.

Lemma distance_refines_reference_formula_witness :
  is_uint8 0x27 /\ 0 <= 0x0F <= 15 /\ 0 <= 2 <= 27 /\
  distance 0x27 0x0F 2 = reference_mm 0x27 0x0F 2.
Proof.
  assert (Hh : is_uint8 0x27) by (unfold is_uint8; lia).
  assert (Hl : 0 <= 0x0F <= 15) by lia.
  assert (Hs : 0 <= 2 <= 27) by lia.
  split; [exact Hh | split; [exact Hl | split; [exact Hs|]]].
  exact (distance_refines_reference_formula 0x27 0x0F 2 Hh Hl Hs).
Defined.

(** C7: every call of [read], from any instance and on any board,
    whatever was done on the bus before, first makes the channel-select
    write to the multiplexer and only then addresses the sensor; this
    holds as well for the instance [a] reading right after another
    instance [b'] did, and the bytes written for two different channels
    from 0 to 3 differ. *)
Theorem read_selects_channel_first :
  (forall (i : Infrared) (b : Board),
      exists rest : list Event,
        trace (after (call read i b)) =
        trace b ++
        [BeginTransmission (Z.shiftr 0xE0 1);
         WireWrite (to_uint8 (channelMask (_index i)));
         EndTransmission] ++
        BeginTransmission (Z.shiftr 0x80 1) :: rest) /\
  (forall (a b' : Infrared) (w : Board),
      let w' := after (call read b' w) in
      exists rest : list Event,
        trace (after (call read a w')) =
        trace w' ++
        [BeginTransmission (Z.shiftr 0xE0 1);
         WireWrite (to_uint8 (channelMask (_index a)));
         EndTransmission] ++
        BeginTransmission (Z.shiftr 0x80 1) :: rest) /\
  (forall m n : Z,
      0 <= m <= 3 -> 0 <= n <= 3 -> m <> n ->
      to_uint8 (channelMask m) = Z.shiftl 1 m /\
      to_uint8 (channelMask m) <> to_uint8 (channelMask n)).
Proof.
  assert (G : forall (i : Infrared) (b : Board),
      exists rest : list Event,
        trace (after (call read i b)) =
        trace b ++
        [BeginTransmission (Z.shiftr 0xE0 1);
         WireWrite (to_uint8 (channelMask (_index i)));
         EndTransmission] ++
        BeginTransmission (Z.shiftr 0x80 1) :: rest).
  { intros i b.
    destruct (hd [] (replies b)) as [| h [| l more]] eqn:Hr.
    - rewrite read_short by (rewrite Hr; simpl; lia).
      eexists. unfold after. cbn [snd board trace]. reflexivity.
    - rewrite read_short by (rewrite Hr; simpl; lia).
      eexists. unfold after. cbn [snd board trace]. reflexivity.
    - rewrite (read_two i b h l more Hr).
      eexists. unfold after. cbn [snd board trace]. reflexivity. }
  split; [exact G | split].
  - intros a b' w w'. apply G.
  - intros m n Hm Hn Hmn.
    rewrite !channel_byte by lia.
    split; [reflexivity|].
    rewrite !Z.shiftl_1_l. intros E.
    apply Z.pow_inj_r in E; lia.
Qed.

Lemma read_selects_channel_first_witness :
  0 <= 0 <= 3 /\ 0 <= 3 <= 3 /\ 0 <> 3 /\
  to_uint8 (channelMask 0) <> to_uint8 (channelMask 3).
Proof.
  assert (Hm : 0 <= 0 <= 3) by lia.
  assert (Hn : 0 <= 3 <= 3) by lia.
  assert (Hd : 0 <> 3) by lia.
  split; [exact Hm | split; [exact Hn | split; [exact Hd|]]].
  exact (proj2 (proj2 (proj2 read_selects_channel_first) 0 3 Hm Hn Hd)).
Defined.

(** C8: for every [raw12] value and every shift value up to 26, so that
    C++ defines the shift of line 124 for it and for its successor, the
    distance computed with the shift value plus one is the distance
    computed with the shift value, divided by 2 and rounded toward zero;
    the same holds for the distance [read] computes from a pair of
    bytes. *)
Theorem scale_next_shift_halves :
  (forall raw shiftValue : Z,
      0 <= raw <= 4095 -> 0 <= shiftValue <= 26 ->
      scale raw (shiftValue + 1) = Z.quot (scale raw shiftValue) 2) /\
  (forall high low shiftValue : Z,
      is_uint8 high -> is_uint8 low -> 0 <= shiftValue <= 26 ->
      distance high low (shiftValue + 1) =
      Z.quot (distance high low shiftValue) 2).
Proof.
  assert (G : forall raw shiftValue : Z,
      0 <= raw <= 4095 -> 0 <= shiftValue <= 26 ->
      scale raw (shiftValue + 1) = Z.quot (scale raw shiftValue) 2).
  { intros raw shiftValue Hr Hs.
    assert (R : 0 <= scale raw shiftValue <= 2559)
      by (apply scale_range; lia).
    rewrite Z.quot_div_nonneg by lia.
    rewrite !scale_plain in * by lia.
    replace (4 + (shiftValue + 1)) with (4 + shiftValue + 1) by lia.
    rewrite <- Z.shiftr_shiftr by lia.
    rewrite (Z.shiftr_div_pow2 _ 1) by lia.
    reflexivity. }
  split; [exact G|].
  intros high low shiftValue Hh Hl Hs. unfold distance.
  destruct (raw12_plain high low Hh Hl) as [_ B].
  assert (Hs' : 0 <= shiftValue <= 256) by lia.
  assert (Hs1 : 0 <= shiftValue + 1 <= 256) by lia.
  pose proof (scale_range _ _ B Hs') as R.
  pose proof (scale_range _ _ B Hs1) as R1.
  rewrite !to_uint16_small by lia.
  apply G; assumption.
Qed.

Lemma scale_next_shift_halves_witness :
  0 <= 4091 <= 4095 /\ 0 <= 1 <= 26 /\
  scale 4091 2 = Z.quot (scale 4091 1) 2.
Proof.
  assert (Hr : 0 <= 4091 <= 4095) by lia.
  assert (Hs : 0 <= 1 <= 26) by lia.
  split; [exact Hr | split; [exact Hs|]].
  exact (proj1 scale_next_shift_halves 4091 1 Hr Hs).
Defined.

(** C9: for a fixed shift value up to 27, the largest for which C++
    defines the shift of line 124, the computed distance does not decrease
    when [raw12] grows: from [a <= b] follows that the distance of [a] is
    at most the distance of [b]; the same holds for the distances [read]
    computes from two pairs of bytes. *)
Theorem scale_monotone_in_raw12 :
  (forall a b shiftValue : Z,
      0 <= a -> a <= b -> b <= 4095 -> 0 <= shiftValue <= 27 ->
      scale a shiftValue <= scale b shiftValue) /\
  (forall high1 low1 high2 low2 shiftValue : Z,
      is_uint8 high1 -> is_uint8 low1 -> is_uint8 high2 -> is_uint8 low2 ->
      0 <= shiftValue <= 27 ->
      raw12 high1 low1 <= raw12 high2 low2 ->
      distance high1 low1 shiftValue <= distance high2 low2 shiftValue).
Proof.
  assert (G : forall a b shiftValue : Z,
      0 <= a -> a <= b -> b <= 4095 -> 0 <= shiftValue <= 27 ->
      scale a shiftValue <= scale b shiftValue).
  { intros a b shiftValue Ha Hab Hb Hs.
    rewrite !scale_div by lia.
    apply Z.div_le_mono; [|lia].
    assert (0 < 2 ^ shiftValue) by (apply Z.pow_pos_nonneg; lia). lia. }
  split; [exact G|].
  intros high1 low1 high2 low2 shiftValue H1 L1 H2 L2 Hs Hle.
  unfold distance.
  destruct (raw12_plain high1 low1 H1 L1) as [_ B1].
  destruct (raw12_plain high2 low2 H2 L2) as [_ B2].
  assert (Hs' : 0 <= shiftValue <= 256) by lia.
  pose proof (scale_range _ _ B1 Hs') as R1.
  pose proof (scale_range _ _ B2 Hs') as R2.
  rewrite !to_uint16_small by lia.
  apply G; [lia | exact Hle | lia | exact Hs].
Qed.

Lemma scale_monotone_in_raw12_witness :
  0 <= 623 /\ 623 <= 624 /\ 624 <= 4095 /\ 0 <= 2 <= 27 /\
  scale 623 2 <= scale 624 2.
Proof.
  assert (Ha : 0 <= 623) by lia.
  assert (Hab : 623 <= 624) by lia.
  assert (Hb : 624 <= 4095) by lia.
  assert (Hs : 0 <= 2 <= 27) by lia.
  split; [exact Ha | split; [exact Hab | split; [exact Hb | split; [exact Hs|]]]].
  exact (proj1 scale_monotone_in_raw12 623 624 2 Ha Hab Hb Hs).
Defined.

(** C10: [read] leaves the instance as it found it, whether it returns a
    distance, finds too few bytes or rejects the distance: [_index] and
    [_shiftValue] are the same afterwards.  [_setMultiplexer] changes
    neither field, [setup] changes [_shiftValue] only, and the
    constructor sets [_index] only. *)
Theorem read_preserves_fields :
  (forall (i : Infrared) (b : Board),
      _index (object (call read i b)) = _index i /\
      _shiftValue (object (call read i b)) = _shiftValue i) /\
  (forall (i : Infrared) (b : Board),
      object (call _setMultiplexer i b) = i) /\
  (forall (i : Infrared) (b : Board),
      _index (object (call setup i b)) = _index i) /\
  (forall (index : Z) (storage : Infrared),
      _index (construct index storage) = to_uint8 index /\
      _shiftValue (construct index storage) = _shiftValue storage).
Proof.
  split; [|split; [|split]].
  - intros i b.
    destruct (hd [] (replies b)) as [| h [| l more]] eqn:Hr.
    + rewrite read_short by (rewrite Hr; simpl; lia). split; reflexivity.
    + rewrite read_short by (rewrite Hr; simpl; lia). split; reflexivity.
    + rewrite (read_two i b h l more Hr). split; reflexivity.
  - intros i b. rewrite setMultiplexer_run. reflexivity.
  - intros i b.
    destruct (hd [] (replies b)) as [| v more] eqn:Hr.
    + rewrite (setup_empty i b Hr). reflexivity.
    + rewrite (setup_byte i b v more Hr). reflexivity.
  - intros index storage. split; reflexivity.
Qed.

(** ** Further properties of [setup] *)

(** X1: when the sensor answers the calibration request with at least
    one byte, [setup] stores the first byte as [_shiftValue], unmasked,
    keeps [_index], prints nothing, and makes exactly these calls: the
    bus start, the channel select, the write of register address 0x35 to
    the sensor, the request for one byte and one read.  Bytes after the
    first are not taken over into the buffer. *)
Theorem setup_stores_reply_byte :
  forall (i : Infrared) (b : Board) (v : Z) (more : list Z),
    is_uint8 v ->
    hd [] (replies b) = v :: more ->
    object (call setup i b) = mkInfrared (_index i) v /\
    rxBuffer (after (call setup i b)) = [] /\
    replies (after (call setup i b)) = tl (replies b) /\
    trace (after (call setup i b)) =
      trace b ++
      [WireBegin;
       BeginTransmission (Z.shiftr 0xE0 1);
       WireWrite (to_uint8 (channelMask (_index i)));
       EndTransmission;
       BeginTransmission (Z.shiftr 0x80 1);
       WireWrite 0x35;
       EndTransmission;
       RequestFrom (Z.shiftr 0x80 1) 1;
       WireRead].
Proof.
  intros i b v more Hv Hr.
  rewrite (setup_byte i b v more Hr).
  unfold object, after. cbn [snd this board rxBuffer replies trace].
  rewrite to_uint8_small by exact Hv.
  repeat split; reflexivity.
Qed.

Lemma setup_stores_reply_byte_witness :
  is_uint8 2 /\
  object (call setup (mkInfrared 1 0) (mkBoard [] [[2]] [])) = mkInfrared 1 2.
Proof.
  assert (Hv : is_uint8 2) by (unfold is_uint8; lia).
  split; [exact Hv|].
  exact (proj1 (setup_stores_reply_byte (mkInfrared 1 0)
                  (mkBoard [] [[2]] []) 2 [] Hv eq_refl)).
Defined.

(** X2: of two calls of [setup] in a row the second one decides: the
    instance ends with the byte of the second answer as [_shiftValue] and
    with its [_index] untouched, whatever the first answer was, also when
    the first call got no byte at all. *)
Theorem setup_twice_keeps_latest :
  forall (i : Infrared) (b : Board) (answer1 : list Z) (v2 : Z)
         (more2 : list Z) (rest : list (list Z)),
    is_uint8 v2 ->
    replies b = answer1 :: (v2 :: more2) :: rest ->
    let first := call setup i b in
    let second := call setup (object first) (after first) in
    object second = mkInfrared (_index i) v2 /\
    replies (after second) = rest.
Proof.
  intros i b answer1 v2 more2 rest Hv Hr first second.
  assert (F : _index (object first) = _index i /\
              replies (after first) = (v2 :: more2) :: rest).
  { unfold first. destruct answer1 as [| v1 more1].
    - rewrite (setup_empty i b) by (rewrite Hr; reflexivity).
      rewrite Hr. split; reflexivity.
    - rewrite (setup_byte i b v1 more1) by (rewrite Hr; reflexivity).
      rewrite Hr. split; reflexivity. }
  destruct F as [Fi Fr].
  unfold second.
  rewrite (setup_byte (object first) (after first) v2 more2)
    by (rewrite Fr; reflexivity).
  unfold object at 1, after at 1.
  cbn [snd this board replies].
  rewrite Fi, Fr, to_uint8_small by exact Hv.
  split; reflexivity.
Qed.

Lemma setup_twice_keeps_latest_witness :
  is_uint8 1 /\
  object (call setup
            (object (call setup (mkInfrared 3 0) (mkBoard [] [[]; [1]] [])))
            (after (call setup (mkInfrared 3 0) (mkBoard [] [[]; [1]] []))))
  = mkInfrared 3 1.
Proof.
  assert (Hv : is_uint8 1) by (unfold is_uint8; lia).
  split; [exact Hv|].
  exact (proj1 (setup_twice_keeps_latest (mkInfrared 3 0)
                  (mkBoard [] [[]; [1]] []) [] 1 [] [] Hv eq_refl)).
Defined.

(** X3: a [read] that follows a [setup] scales with the shift value that
    [setup] fetched, not with the one the instance held before: for a
    fetched shift value [s] up to 27 and the bytes [high], [low] the
    result is [(((high << 4) | low) * 10) >> (4 + s)] when that is below
    639, and -1 otherwise. *)
Theorem setup_then_read_uses_fetched_shift :
  forall (i : Infrared) (b : Board) (s high low : Z)
         (more more' : list Z) (rest : list (list Z)),
    0 <= s <= 27 -> is_uint8 high -> is_uint8 low ->
    replies b = (s :: more) :: (high :: low :: more') :: rest ->
    let ready := call setup i b in
    result (call read (object ready) (after ready)) =
    (let d := Z.shiftr (Z.lor (Z.shiftl high 4) low * 10) (4 + s) in
     if d <? 639 then d else -1).
Proof.
  intros i b s high low more more' rest Hs Hh Hl Hr ready.
  assert (H1 : hd [] (replies b) = s :: more) by (rewrite Hr; reflexivity).
  assert (F : ready =
              (tt, mkState (mkInfrared (_index i) (to_uint8 s))
                     (mkBoard [] ((high :: low :: more') :: rest)
                        (trace (after ready)))))
    by (unfold ready; rewrite (setup_byte i b s more H1), Hr; reflexivity).
  rewrite F. unfold object, after. cbn [snd this board].
  rewrite (read_returns_checked_distance _ _ high low more') by reflexivity.
  cbn [_shiftValue].
  rewrite !to_uint8_small by (assumption || (unfold is_uint8; lia)).
  cbv zeta. rewrite distance_plain by (assumption || lia).
  reflexivity.
Qed.

Lemma setup_then_read_uses_fetched_shift_witness :
  0 <= 2 <= 27 /\ is_uint8 0x27 /\ is_uint8 0x00 /\
  result (call read
            (object (call setup (mkInfrared 0 9)
                       (mkBoard [] [[2]; [0x27; 0x00]] [])))
            (after (call setup (mkInfrared 0 9)
                      (mkBoard [] [[2]; [0x27; 0x00]] [])))) = 97.
Proof.
  assert (Hs : 0 <= 2 <= 27) by lia.
  assert (Hh : is_uint8 0x27) by (unfold is_uint8; lia).
  assert (Hl : is_uint8 0x00) by (unfold is_uint8; lia).
  split; [exact Hs | split; [exact Hh | split; [exact Hl|]]].
  exact (setup_then_read_uses_fetched_shift (mkInfrared 0 9)
           (mkBoard [] [[2]; [0x27; 0x00]] []) 2 0x27 0x00 [] [] []
           Hs Hh Hl eq_refl).
Defined.

(** X4: on every board [setup] starts the bus, then selects its channel
    on the multiplexer, and only then writes register address 0x35 to
    the sensor and asks it for one byte; it ends with exactly one
    [Wire.read], preceded by the notice when no byte is available. *)
Theorem setup_selects_channel_first :
  forall (i : Infrared) (b : Board),
    trace (after (call setup i b)) =
      trace b ++
      [WireBegin;
       BeginTransmission (Z.shiftr 0xE0 1);
       WireWrite (to_uint8 (channelMask (_index i)));
       EndTransmission;
       BeginTransmission (Z.shiftr 0x80 1);
       WireWrite 0x35;
       EndTransmission;
       RequestFrom (Z.shiftr 0x80 1) 1] ++
      match hd [] (replies b) with
      | [] => [SerialPrintln "Wire not available"; WireRead]
      | _ :: _ => [WireRead]
      end.
Proof.
  intros i b.
  destruct (hd [] (replies b)) as [| v more] eqn:Hr.
  - rewrite (setup_empty i b Hr). reflexivity.
  - rewrite (setup_byte i b v more Hr). reflexivity.
Qed.

(** ** Further properties of [read] *)

(** X5: [read] returns -1 in exactly two situations: fewer than two
    bytes are available after the request, or the distance computed from
    the first two bytes is 639 or more.  A -1 is never a computed
    distance. *)
Theorem read_sentinel_iff :
  forall (i : Infrared) (b : Board),
    let reply := hd [] (replies b) in
    let d := distance (to_uint8 (nth 0 reply 0)) (to_uint8 (nth 1 reply 0))
               (_shiftValue i) in
    result (call read i b) = -1 <->
    (Z.of_nat (List.length reply) < 2 \/ 639 <= d).
Proof.
  intros i b reply d. subst reply d.
  destruct (hd [] (replies b)) as [| h [| l more]] eqn:Hr.
  - rewrite read_short by (rewrite Hr; simpl; lia).
    split; [intros _; left; simpl; lia | reflexivity].
  - rewrite read_short by (rewrite Hr; simpl; lia).
    split; [intros _; left; simpl; lia | reflexivity].
  - rewrite (read_returns_checked_distance i b h l more Hr).
    cbn [nth]. cbv zeta.
    pose proof (to_uint16_range
      (scale (raw12 (to_uint8 h) (to_uint8 l)) (_shiftValue i))) as R.
    fold (distance (to_uint8 h) (to_uint8 l) (_shiftValue i)) in R.
    assert (Len : Z.of_nat (List.length (h :: l :: more)) >= 2)
      by (cbn [List.length]; lia).
    destruct (distance (to_uint8 h) (to_uint8 l) (_shiftValue i) <? 639)
      eqn:L.
    + apply Z.ltb_lt in L. split; [intros E; lia | intros [S | G]; lia].
    + apply Z.ltb_ge in L. split; [intros _; right; exact L | reflexivity].
Qed.

Lemma read_sentinel_iff_witness :
  result (call read (mkInfrared 0 2) (mkBoard [] [[0xFF; 0x0F]] [])) = -1.
Proof.
  apply (proj2 (read_sentinel_iff (mkInfrared 0 2)
                  (mkBoard [] [[0xFF; 0x0F]] []))).
  right. vm_compute. discriminate.
Defined.

(** X6: every call of [read] makes the same five calls up to the
    request: the channel select, the write of register address 0x5E to
    the sensor and the request for two bytes.  After that it either
    prints its notice and reads nothing, leaving what arrived in the
    buffer, or it reads exactly two bytes and prints nothing.  It never
    starts the bus, and it uses up one answer of the bus either way. *)
Theorem read_bus_traffic :
  forall (i : Infrared) (b : Board),
    let reply := firstn 2 (hd [] (replies b)) in
    let short := Z.of_nat (List.length reply) <? 2 in
    trace (after (call read i b)) =
      trace b ++
      [BeginTransmission (Z.shiftr 0xE0 1);
       WireWrite (to_uint8 (channelMask (_index i)));
       EndTransmission;
       BeginTransmission (Z.shiftr 0x80 1);
       WireWrite 0x5E;
       EndTransmission;
       RequestFrom (Z.shiftr 0x80 1) 2] ++
      (if short then [SerialPrintln "Wire not available"]
       else [WireRead; WireRead]) /\
    rxBuffer (after (call read i b)) = (if short then reply else []) /\
    replies (after (call read i b)) = tl (replies b).
Proof.
  intros i b reply short. subst reply short.
  destruct (hd [] (replies b)) as [| h [| l more]] eqn:Hr.
  - rewrite read_short by (rewrite Hr; simpl; lia).
    rewrite Hr. repeat split; reflexivity.
  - rewrite read_short by (rewrite Hr; simpl; lia).
    rewrite Hr. repeat split; reflexivity.
  - rewrite (read_two i b h l more Hr). repeat split; reflexivity.
Qed.

(** X7: which register values [read] accepts depends on the stored shift
    value alone.  With a shift value of 2 every [raw12] up to 4089 gives
    a distance, with 1 every [raw12] up to 2044, with 0 every [raw12] up
    to 1022, and larger ones give -1; with a shift value from 3 to 27 no
    [raw12] is rejected. *)
Theorem read_accepts_up_to :
  forall (index shiftValue high low : Z) (b : Board) (more : list Z),
    is_uint8 high -> is_uint8 low -> 0 <= shiftValue <= 27 ->
    hd [] (replies b) = high :: low :: more ->
    let limit :=
      if shiftValue =? 0 then 1022
      else if shiftValue =? 1 then 2044
      else if shiftValue =? 2 then 4089
      else 4095 in
    (raw12 high low <= limit <->
     result (call read (mkInfrared index shiftValue) b) <> -1) /\
    (raw12 high low <= limit ->
     result (call read (mkInfrared index shiftValue) b) =
     scale (raw12 high low) shiftValue).
Proof.
  intros index shiftValue high low b more Hh Hl Hs Hr limit.
  destruct (raw12_plain high low Hh Hl) as [_ B].
  rewrite (read_returns_checked_distance _ b high low more Hr).
  cbn [_shiftValue]. rewrite !to_uint8_small by assumption.
  cbv zeta. unfold distance.
  assert (Hs' : 0 <= shiftValue <= 256) by lia.
  pose proof (scale_range _ _ B Hs') as R.
  rewrite to_uint16_small by lia.
  assert (K : scale (raw12 high low) shiftValue < 639 <->
              raw12 high low <= limit).
  { rewrite scale_div by assumption. subst limit.
    assert (C : shiftValue = 0 \/ shiftValue = 1 \/ shiftValue = 2 \/
                3 <= shiftValue) by lia.
    destruct C as [-> | [-> | [-> | G]]].
    - cbn. Z.div_mod_to_equations. lia.
    - cbn. Z.div_mod_to_equations. lia.
    - cbn. Z.div_mod_to_equations. lia.
    - assert (E0 : (shiftValue =? 0) = false) by (apply Z.eqb_neq; lia).
      assert (E1 : (shiftValue =? 1) = false) by (apply Z.eqb_neq; lia).
      assert (E2 : (shiftValue =? 2) = false) by (apply Z.eqb_neq; lia).
      rewrite E0, E1, E2.
      assert (P : 2 ^ 3 <= 2 ^ shiftValue)
        by (apply Z.pow_le_mono_r; lia).
      change (2 ^ 3) with 8 in P.
      split; [intros _; lia | intros _].
      apply Z.div_lt_upper_bound; nia. }
  destruct (scale (raw12 high low) shiftValue <? 639) eqn:L.
  - apply Z.ltb_lt in L. split.
    + split; [intros _; lia | intros _; apply K; exact L].
    + reflexivity.
  - apply Z.ltb_ge in L. split.
    + split; [intros Le; apply K in Le; lia | intros N; contradiction N; reflexivity].
    + intros Le. apply K in Le. lia.
Qed.

Lemma read_accepts_up_to_witness :
  is_uint8 0xFF /\ is_uint8 0x09 /\ 0 <= 2 <= 27 /\
  result (call read (mkInfrared 0 2) (mkBoard [] [[0xFF; 0x09]] [])) = 638.
Proof.
  assert (Hh : is_uint8 0xFF) by (unfold is_uint8; lia).
  assert (Hl : is_uint8 0x09) by (unfold is_uint8; lia).
  assert (Hs : 0 <= 2 <= 27) by lia.
  split; [exact Hh | split; [exact Hl | split; [exact Hs|]]].
  refine (proj2 (read_accepts_up_to 0 2 0xFF 0x09
                   (mkBoard [] [[0xFF; 0x09]] []) [] Hh Hl Hs eq_refl) _).
  vm_compute. discriminate.
Defined.

(** ** Further properties of the arithmetic of line 124 *)

Lemma split_nibbles (low : Z) :
  0 <= low -> Z.lor (Z.shiftl (low / 16) 4) (low mod 16) = low.
Proof.
  intros Hl.
  assert (M : 0 <= low mod 16 <= 15)
    by (pose proof (Z.mod_pos_bound low 16); lia).
  rewrite lor_shifted_nibble by exact M.
  pose proof (Z.div_mod low 16). lia.
Qed.

(** X8: [read] does not mask the second byte down to its low nibble:
    the upper four bits of [low] are or-ed into the low four bits of
    [high], so that [raw12 = (high | (low >> 4)) * 16 + (low & 15)].  It
    is [high * 16 + low] only while [low] is at most 15; for
    [high = 1], [low = 16] the computed distance is 10 where the
    reference formula gives 20. *)
Theorem raw12_keeps_upper_nibble_of_low :
  (forall high low : Z,
      is_uint8 high -> is_uint8 low ->
      raw12 high low = Z.lor high (low / 16) * 16 + low mod 16 /\
      0 <= raw12 high low <= 4095) /\
  distance 1 16 0 = 10 /\ reference_mm 1 16 0 = 20.
Proof.
  split; [|split; reflexivity].
  intros high low Hh Hl.
  destruct (raw12_plain high low Hh Hl) as [E B].
  unfold is_uint8 in Hh, Hl.
  assert (M : 0 <= low mod 16 <= 15)
    by (pose proof (Z.mod_pos_bound low 16); lia).
  assert (R : Z.lor (Z.shiftl high 4) low =
              Z.lor high (low / 16) * 16 + low mod 16).
  { rewrite <- (split_nibbles low) at 1 by lia.
    rewrite Z.lor_assoc, <- Z.shiftl_lor.
    apply lor_shifted_nibble. exact M. }
  split; [rewrite E, R; reflexivity | exact B].
Qed.

Lemma raw12_keeps_upper_nibble_of_low_witness :
  is_uint8 0x20 /\ is_uint8 0x7F /\ raw12 0x20 0x7F = 0x27F.
Proof.
  assert (Hh : is_uint8 0x20) by (unfold is_uint8; lia).
  assert (Hl : is_uint8 0x7F) by (unfold is_uint8; lia).
  split; [exact Hh | split; [exact Hl|]].
  exact (proj1 (proj1 raw12_keeps_upper_nibble_of_low 0x20 0x7F Hh Hl)).
Defined.

(** X9: the shift only drops a fraction: for every pair of bytes and
    every shift value up to 27 the computed distance [d] is the largest
    number with [d * 2 ^ (4 + shiftValue) <= raw12 * 10], and it is
    never above 2559, so that the [uint16_t] it is stored in never
    wraps. *)
Theorem distance_truncates :
  forall high low shiftValue : Z,
    is_uint8 high -> is_uint8 low -> 0 <= shiftValue <= 27 ->
    let d := distance high low shiftValue in
    d * 2 ^ (4 + shiftValue) <= raw12 high low * 10
      < (d + 1) * 2 ^ (4 + shiftValue) /\
    0 <= d <= 2559 /\
    d = scale (raw12 high low) shiftValue.
Proof.
  intros high low shiftValue Hh Hl Hs d. subst d. unfold distance.
  destruct (raw12_plain high low Hh Hl) as [_ B].
  assert (Hs' : 0 <= shiftValue <= 256) by lia.
  pose proof (scale_range _ _ B Hs') as R.
  rewrite to_uint16_small by lia.
  split; [|split; [exact R | reflexivity]].
  rewrite scale_plain by assumption.
  rewrite Z.shiftr_div_pow2 by lia.
  assert (P : 0 < 2 ^ (4 + shiftValue)) by (apply Z.pow_pos_nonneg; lia).
  pose proof (Z.mul_div_le (raw12 high low * 10) _ P).
  pose proof (Z.mul_succ_div_gt (raw12 high low * 10) _ P).
  lia.
Qed.

Lemma distance_truncates_witness :
  is_uint8 0x27 /\ is_uint8 0x05 /\ 0 <= 2 <= 27 /\
  0 <= distance 0x27 0x05 2 <= 2559.
Proof.
  assert (Hh : is_uint8 0x27) by (unfold is_uint8; lia).
  assert (Hl : is_uint8 0x05) by (unfold is_uint8; lia).
  assert (Hs : 0 <= 2 <= 27) by lia.
  split; [exact Hh | split; [exact Hl | split; [exact Hs|]]].
  exact (proj1 (proj2 (distance_truncates 0x27 0x05 2 Hh Hl Hs))).
Defined.

(** X10: shift values add up: the distance computed with the shift
    value [s + k] is the distance computed with [s], divided by [2 ^ k]
    and truncated, and so it is never larger. *)
Theorem scale_shifts_compose :
  forall raw s k : Z,
    0 <= raw <= 4095 -> 0 <= s -> 0 <= k -> s + k <= 27 ->
    scale raw (s + k) = scale raw s / 2 ^ k /\
    scale raw (s + k) <= scale raw s.
Proof.
  intros raw s k Hr Hs Hk Hsk.
  rewrite !scale_plain by lia.
  replace (4 + (s + k)) with (4 + s + k) by lia.
  rewrite <- Z.shiftr_shiftr by lia.
  split.
  - rewrite (Z.shiftr_div_pow2 _ k) by lia. reflexivity.
  - apply shiftr_below; [|lia].
    apply shiftr_below; lia.
Qed.

Lemma scale_shifts_compose_witness :
  0 <= 4000 <= 4095 /\ 0 <= 1 /\ 0 <= 2 /\ 1 + 2 <= 27 /\
  scale 4000 (1 + 2) = scale 4000 1 / 2 ^ 2.
Proof.
  assert (Hr : 0 <= 4000 <= 4095) by lia.
  assert (Hs : 0 <= 1) by lia.
  assert (Hk : 0 <= 2) by lia.
  assert (Hsk : 1 + 2 <= 27) by lia.
  split; [exact Hr | split; [exact Hs | split; [exact Hk | split; [exact Hsk|]]]].
  exact (proj1 (scale_shifts_compose 4000 1 2 Hr Hs Hk Hsk)).
Defined.

(** ** Further properties of [_setMultiplexer] *)

(** X11: [_setMultiplexer] does not compare the index with
    MULTIPLEXER_CHANNEL_COUNT.  For an index from 4 to 30 it still makes
    its write transaction, and the byte it sends has none of the four
    channel bits set: it is [1 << index] for an index up to 7 and 0 from
    8 on. *)
Theorem setMultiplexer_index_beyond_channels :
  forall (index shiftValue : Z) (b : Board),
    MULTIPLEXER_CHANNEL_COUNT <= index <= 30 ->
    let mask := if index <? 8 then Z.shiftl 1 index else 0 in
    trace (after (call _setMultiplexer (mkInfrared index shiftValue) b)) =
      trace b ++
      [BeginTransmission (Z.shiftr 0xE0 1); WireWrite mask; EndTransmission] /\
    Z.land mask 0x0F = 0.
Proof.
  intros index shiftValue b H mask. subst mask.
  unfold MULTIPLEXER_CHANNEL_COUNT in H.
  rewrite setMultiplexer_run. unfold after.
  cbn [snd board trace _index].
  destruct (index <? 8) eqn:L.
  - apply Z.ltb_lt in L. rewrite channel_byte by lia.
    split; [reflexivity|].
    assert (C : index = 4 \/ index = 5 \/ index = 6 \/ index = 7) by lia.
    destruct C as [-> | [-> | [-> | ->]]]; reflexivity.
  - apply Z.ltb_ge in L.
    assert (Z0 : to_uint8 (channelMask index) = 0).
    { unfold channelMask. rewrite Z.shiftl_1_l.
      assert (P : 0 < 2 ^ index < 2 ^ 31).
      { split; [apply Z.pow_pos_nonneg; lia|].
        apply Z.pow_lt_mono_r; lia. }
      rewrite to_int_small by lia.
      unfold to_uint8.
      replace index with (index - 8 + 8) by lia.
      rewrite Z.pow_add_r by lia.
      apply Z.mod_mul. discriminate. }
    rewrite Z0. split; reflexivity.
Qed.

Lemma setMultiplexer_index_beyond_channels_witness :
  MULTIPLEXER_CHANNEL_COUNT <= 9 <= 30 /\
  trace (after (call _setMultiplexer (mkInfrared 9 2) (mkBoard [] [] []))) =
  [BeginTransmission 0x70; WireWrite 0; EndTransmission].
Proof.
  assert (H : MULTIPLEXER_CHANNEL_COUNT <= 9 <= 30)
    by (unfold MULTIPLEXER_CHANNEL_COUNT; lia).
  split; [exact H|].
  exact (proj1 (setMultiplexer_index_beyond_channels 9 2
                  (mkBoard [] [] []) H)).
Defined.
